(** * mma_skincare: the order workflow of [src/routes/orderRoute.js]

    A shallow embedding of the three order handlers (cart submission, order
    cancellation, payment-gateway return) over an explicit store of Product
    and Order documents, followed by the properties of the order workflow
    that the specification states about them.

    Modelling conventions.
    - A JavaScript [Number] is an exact integer ([Z]); the one non-integer
      value the handlers compute, [totalAmount * 0.5], is an exact rational.
    - A collection is a finite map from the document's [_id] (a string) to
      the document.  Timestamps are left out.
    - An [await]ed Mongoose call is one persistence operation; it can throw.
      Which operation of a request throws, if any, is given by the
      [budget] of the run: [Some n] lets [n] operations through and makes
      the next one throw, [None] lets all of them through.
    - Each handler is the body of its [try] block in an exception monad over
      the store, wrapped by its [catch] clause.
    - The middleware in front of the handlers (authentication, role gate) is
      not part of the handlers and is not modelled. *)

From Stdlib Require Import ZArith QArith String Ascii List Bool.
From stdpp Require Import gmap strings list fin_maps pretty.
Import ListNotations.

Local Open Scope string_scope.
Local Open Scope list_scope.
Local Open Scope Z_scope.

(** ** Documents *)

(** [src/unnamed/part_000], [ProductSchema]: the fields the order workflow
    reads or writes. *)
Module Product.

Record t := mk { name : string; quantity : Z; price : Z }.

Definition with_quantity (q : Z) (p : t) : t :=
  {| name := name p; quantity := q; price := price p |}.

End Product.

(** [src/models/order.model.js], the [status] enum. *)
Inductive Status := Pending | Paid | Canceled.

#[global] Instance Status_eq_dec : EqDecision Status.
Proof. solve_decision. Defined.

(** One element of [items]. *)
Module Item.

Record t := mk { product : string; quantity : Z }.

End Item.

(** [src/models/order.model.js], [OrderSchema]. *)
Module Order.

Record t := mk {
  account : string;
  status : Status;
  items : list Item.t;
  promotion : option string;
  totalAmount : Z
}.

Definition with_status (s : Status) (o : t) : t :=
  {| account := account o; status := s; items := items o;
     promotion := promotion o; totalAmount := totalAmount o |}.

End Order.

(** One row of the refund mail ([formattedItems], lines 281-286). *)
Record FormattedItem := {
  productName : string;
  fi_quantity : Z;
  fi_price : Z;
  fi_total : Z
}.

(** The refund mail handed to the transporter: the data its HTML is
    rendered from. *)
Record Mail := {
  mail_orderId : string;
  mail_refundAmount : Q;
  mail_items : list FormattedItem
}.

(** ** The store and the exception monad *)

Record Runtime := mkRuntime {
  products : gmap string Product.t;
  orders : gmap string Order.t;
  outbox : list Mail;
  budget : option nat
}.

Definition set_products (m : gmap string Product.t) (rt : Runtime) : Runtime :=
  mkRuntime m (orders rt) (outbox rt) (budget rt).
Definition set_orders (m : gmap string Order.t) (rt : Runtime) : Runtime :=
  mkRuntime (products rt) m (outbox rt) (budget rt).
Definition set_outbox (l : list Mail) (rt : Runtime) : Runtime :=
  mkRuntime (products rt) (orders rt) l (budget rt).
Definition set_budget (b : option nat) (rt : Runtime) : Runtime :=
  mkRuntime (products rt) (orders rt) (outbox rt) b.

(** What a handler's [try] block can throw. *)
Inductive Exn :=
| CastError (path value : string)
| ValidatorError (path : string)
| DuplicateKey (id : string)
| PersistenceFailure
| TypeError (what : string)
| ReferenceError (ident : string)
| FsError (path : string)
| GatewayError.

Inductive Res (A : Type) :=
| Val (a : A)
| Thrown (e : Exn).
Arguments Val {A} a.
Arguments Thrown {A} e.

Definition M (A : Type) : Type := Runtime -> Res A * Runtime.

Definition ret {A} (a : A) : M A := fun rt => (Val a, rt).
Definition throw {A} (e : Exn) : M A := fun rt => (Thrown e, rt).
Definition bind {A B} (c : M A) (k : A -> M B) : M B :=
  fun rt => match c rt with
            | (Val a, rt') => k a rt'
            | (Thrown e, rt') => (Thrown e, rt')
            end.

Notation "'let*' x ':=' c 'in' k" := (bind c (fun x => k))
  (at level 10, x pattern, c at level 100, k at level 200).
Notation "c ';;' k" := (bind c (fun _ => k))
  (at level 100, k at level 200, right associativity).

(** One persistence operation: throws when the budget is used up. *)
Definition tick : M unit := fun rt =>
  match budget rt with
  | None => (Val tt, rt)
  | Some O => (Thrown PersistenceFailure, rt)
  | Some (S n) => (Val tt, set_budget (Some n) rt)
  end.

Definition get_products : M (gmap string Product.t) := fun rt => (Val (products rt), rt).
Definition get_orders : M (gmap string Order.t) := fun rt => (Val (orders rt), rt).
Definition put_products (m : gmap string Product.t) : M unit :=
  fun rt => (Val tt, set_products m rt).
Definition put_orders (m : gmap string Order.t) : M unit :=
  fun rt => (Val tt, set_orders m rt).
Definition push_mail (m : Mail) : M unit :=
  fun rt => (Val tt, set_outbox (outbox rt ++ [m]) rt).

(** ** Mongoose operations *)

Definition is_hex (a : ascii) : bool :=
  let n := N_of_ascii a in
  ((48 <=? n) && (n <=? 57) || (97 <=? n) && (n <=? 102) || (65 <=? n) && (n <=? 70))%N.

(** A string Mongoose casts to an ObjectId: 24 hexadecimal characters.
    (The 12-byte form some driver versions also take is not used here.) *)
Definition is_object_id (s : string) : bool :=
  (Nat.eqb (String.length s) 24) && forallb is_hex (list_ascii_of_string s).

Definition cast_id (path value : string) : M unit :=
  if is_object_id value then ret tt else throw (CastError path value).

(** [db.Product.findById(id)] for an [id] that is an ObjectId already: a
    fresh document, or [null]. *)
Definition Product_find (id : string) : M (option Product.t) :=
  tick ;;
  let* ps := get_products in
  ret (ps !! id).

(** [db.Product.findById(id)] for an [id] taken from the request. *)
Definition Product_findById (id : string) : M (option Product.t) :=
  cast_id "_id" id ;;
  Product_find id.

(** [product.save()] of a document fetched under [id]. *)
Definition Product_save (id : string) (p : Product.t) : M unit :=
  tick ;;
  let* ps := get_products in
  put_products (<[id := p]> ps).

(** Schema validation of a new Order document: [account] and every
    [items.product] cast to ObjectId, every [items.quantity] is at least 1
    ([min: 1]), [promotion] casts to ObjectId.  A value that does not cast
    is recorded when the document is built and rejected when it is saved,
    before anything is sent to the store. *)
Fixpoint validate_items (its : list Item.t) : M unit :=
  match its with
  | [] => ret tt
  | it :: rest =>
      cast_id "items.product" (Item.product it) ;;
      (if Item.quantity it <? 1 then throw (ValidatorError "items.quantity") else ret tt) ;;
      validate_items rest
  end.

Definition validate_order (account : string) (its : list Item.t) (promotion : string) : M unit :=
  cast_id "account" account ;;
  validate_items its ;;
  cast_id "promotion" promotion.

(** [new db.Order({account, items, promotion, totalAmount, status: "Pending"})]
    followed by [newOrder.save()]; [id] is the [_id] Mongoose generated. *)
Definition Order_create (id account : string) (its : list Item.t) (promotion : string)
    (totalAmount : Z) : M unit :=
  validate_order account its promotion ;;
  tick ;;
  let* os := get_orders in
  match os !! id with
  | Some _ => throw (DuplicateKey id)
  | None =>
      put_orders (<[id := Order.mk account Pending its (Some promotion) totalAmount]> os)
  end.

(** An order as [findById(orderId).populate("items.product")] returns it:
    each item's [product] is the referenced document with its [_id], or
    [null] when no product has that id.  The query and its populate are
    one awaited expression and count as one persistence operation. *)
Record PopulatedItem := {
  pi_product : option (string * Product.t);
  pi_quantity : Z
}.

Record PopulatedOrder := {
  po_status : Status;
  po_totalAmount : Z;
  po_items : list PopulatedItem
}.

Definition populate_item (ps : gmap string Product.t) (it : Item.t) : PopulatedItem :=
  {| pi_product := (fun p => (Item.product it, p)) <$> (ps !! Item.product it);
     pi_quantity := Item.quantity it |}.

Definition Order_findById_populate (id : string) : M (option PopulatedOrder) :=
  cast_id "_id" id ;;
  tick ;;
  let* os := get_orders in
  let* ps := get_products in
  ret ((fun o => {| po_status := Order.status o;
                    po_totalAmount := Order.totalAmount o;
                    po_items := map (populate_item ps) (Order.items o) |}) <$> (os !! id)).

(** [order.status = s; await order.save()] on the document fetched under [id]. *)
Definition Order_save_status (id : string) (s : Status) : M unit :=
  tick ;;
  let* os := get_orders in
  put_orders (alter (Order.with_status s) id os).

(** [db.Order.findByIdAndUpdate(id, { status: s })]; the result is not used. *)
Definition Order_findByIdAndUpdate (id : string) (s : Status) : M unit :=
  cast_id "_id" id ;;
  tick ;;
  let* os := get_orders in
  put_orders (alter (Order.with_status s) id os).

(** ** Requests, responses, and what a request gets from outside *)

Inductive Body :=
| BMessage (message : string)
| BError (message : string) (error : Exn)
| BPayment (vnpayResponse : string) (orderId : string)
| BRefund (message : string) (refundAmount : Q).

Inductive Response :=
| Json (code : Z) (body : Body)
| Redirect (url : string).

(** What a request draws from outside the store: the [_id] given to a new
    Order, the payment URL the gateway client builds for an amount and a
    transaction reference ([None]: the call throws), and the refund mail
    template read from disk ([None]: the read throws). *)
Record Env := {
  new_order_id : string;
  buildPaymentUrl : Z -> string -> option string;
  refundTemplate : option string
}.

(** [req.body] of a cart submission; [None] is an absent field. *)
Record CartBody := {
  account : option string;
  items : option (list Item.t);
  promotion : option string
}.

Definition try_catch {A} (c : M A) (handler : Exn -> A) : Runtime -> A * Runtime :=
  fun rt => match c rt with
            | (Val a, rt') => (a, rt')
            | (Thrown e, rt') => (handler e, rt')
            end.

(** ** POST /add-to-cart (orderRoute.js, lines 108-181) *)

(** [!account]: an absent field and the empty string are falsy. *)
Definition falsy (s : option string) : bool :=
  match s with
  | None => true
  | Some s => String.eqb s ""
  end.

Definition not_found_message (id : string) : string :=
  "Product with ID " +:+ id +:+ " not found.".

Definition stock_message (name : string) (available requested : Z) : string :=
  "Not enough stock for " +:+ name +:+ ". Available: " +:+ pretty available
    +:+ ", Requested: " +:+ pretty requested.

(** The first loop (lines 119-134).  Every [findById] yields a document of
    its own; the decrement is made on that document, which is pushed on
    [updatedProducts] and written to the store only by the second loop. *)
Fixpoint cart_loop (its : list Item.t) (totalAmount : Z)
    (updatedProducts : list (string * Product.t))
    : M (Response + Z * list (string * Product.t)) :=
  match its with
  | [] => ret (inr (totalAmount, updatedProducts))
  | item :: rest =>
      let* product := Product_findById (Item.product item) in
      match product with
      | None => ret (inl (Json 404 (BMessage (not_found_message (Item.product item)))))
      | Some p =>
          if Product.quantity p <? Item.quantity item then
            ret (inl (Json 400 (BMessage
                   (stock_message (Product.name p) (Product.quantity p) (Item.quantity item)))))
          else
            cart_loop rest
              (totalAmount + Item.quantity item * Product.price p)
              (updatedProducts ++
                 [(Item.product item,
                   Product.with_quantity (Product.quantity p - Item.quantity item) p)])
      end
  end.

(** The second loop (lines 137-139). *)
Fixpoint save_products (updatedProducts : list (string * Product.t)) : M unit :=
  match updatedProducts with
  | [] => ret tt
  | (id, p) :: rest => Product_save id p ;; save_products rest
  end.

(** [vnpay.buildPaymentUrl({ vnp_Amount: totalAmount, vnp_TxnRef: id, ... })]. *)
Definition build_payment_url (env : Env) (totalAmount : Z) (id : string) : M string :=
  match buildPaymentUrl env totalAmount id with
  | Some url => ret url
  | None => throw GatewayError
  end.

Definition empty_cart_message : string := "An order must contain at least one product.".

Definition add_to_cart_try (env : Env) (body : CartBody) : M Response :=
  let promotion := default "None" (promotion body) in
  match account body, items body with
  | Some account, Some items =>
      if falsy (Some account) || Nat.eqb (length items) 0 then
        ret (Json 400 (BMessage empty_cart_message))
      else
        let* r := cart_loop items 0 [] in
        match r with
        | inl response => ret response
        | inr (totalAmount, updatedProducts) =>
            save_products updatedProducts ;;
            Order_create (new_order_id env) account items promotion totalAmount ;;
            let* vnpayResponse := build_payment_url env totalAmount (new_order_id env) in
            ret (Json 201 (BPayment vnpayResponse (new_order_id env)))
        end
  | _, _ => ret (Json 400 (BMessage empty_cart_message))
  end.

Definition add_to_cart (env : Env) (body : CartBody) : Runtime -> Response * Runtime :=
  try_catch (add_to_cart_try env body) (fun e => Json 500 (BError "Server error." e)).

(** ** POST /cancel-order/:orderId (orderRoute.js, lines 257-318) *)

(** [for (const x of l) { ... }] whose body may [return] a response
    ([Some]) or fall through to the next element ([None]). *)
Fixpoint for_of {A} (l : list A) (body : A -> M (option Response)) : M (option Response) :=
  match l with
  | [] => ret None
  | x :: rest =>
      let* r := body x in
      match r with
      | Some response => ret (Some response)
      | None => for_of rest body
      end
  end.

(** The identifiers bound where the handler builds [mailOptions] (line 297):
    the module's [const]s, the handler's parameters and locals, and the
    globals of the Node module scope. *)
Definition cancel_scope : list string :=
  [ "express"; "db"; "crypto"; "VNPay"; "ignoreLogger"; "ProductCode"; "VnpLocale";
    "dateFormat"; "roleMiddleware"; "authMiddleware"; "nodemailer"; "fs"; "path";
    "handlebars"; "moment"; "axios"; "CryptoJS"; "orderRoute";
    "req"; "res"; "orderId"; "order"; "refundAmount"; "item"; "product";
    "formattedItems"; "emailTemplatePath"; "emailTemplateSource"; "emailTemplate";
    "emailHtml"; "transporter";
    "process"; "console"; "require"; "module"; "__dirname" ].

(** Reading an identifier: a [ReferenceError] when nothing binds it. *)
Definition read_identifier (scope : list string) (x : string) : M unit :=
  if existsb (String.eqb x) scope then ret tt else throw (ReferenceError x).

(** [fs.readFileSync(emailTemplatePath, "utf8")]. *)
Definition read_refund_template (env : Env) : M string :=
  match refundTemplate env with
  | Some source => ret source
  | None => throw (FsError "../templates/refundTemplate.html")
  end.

(** [order.totalAmount * 0.5], in lowest terms. *)
Definition refund_of (totalAmount : Z) : Q := Qred (inject_Z totalAmount * (1 # 2)).

Definition cancel_success_message : string :=
  "Đơn hàng đã được hủy và hoàn tiền 50%. Số lượng sản phẩm đã được cập nhật vào kho.".

(** [x || d] on a string and on a number. *)
Definition or_string (x d : string) : string := if String.eqb x "" then d else x.
Definition or_zero (x : option Z) : Z := default 0 x.

Definition format_item (item : PopulatedItem) : FormattedItem :=
  {| productName :=
       or_string (default "" ((fun p => Product.name (snd p)) <$> pi_product item))
                 "Unknown Product";
     fi_quantity := pi_quantity item;
     fi_price := or_zero ((fun p => Product.price (snd p)) <$> pi_product item);
     fi_total :=
       or_zero ((fun p => pi_quantity item * Product.price (snd p)) <$> pi_product item) |}.

(** The body of the loop over [order.items] (lines 272-312).  The status
    update, the mail and the [return] are all inside the loop. *)
Definition cancel_item (env : Env) (orderId : string) (order : PopulatedOrder)
    (refundAmount : Q) (item : PopulatedItem) : M (option Response) :=
  let* id := match pi_product item with
             | Some (id, _) => ret id
             | None => throw (TypeError "item.product._id")
             end in
  let* product := Product_find id in
  match product with
  | Some product =>
      Product_save id
        (Product.with_quantity (Product.quantity product + pi_quantity item) product)
  | None => ret tt
  end ;;
  Order_save_status orderId Canceled ;;
  let formattedItems := map format_item (po_items order) in
  let* emailTemplateSource := read_refund_template env in
  read_identifier cancel_scope "account" ;;
  push_mail {| mail_orderId := orderId; mail_refundAmount := refundAmount;
               mail_items := formattedItems |} ;;
  ret (Some (Json 200 (BRefund cancel_success_message refundAmount))).

(** [None] as the result: the handler ended without sending a response. *)
Definition cancel_order_try (env : Env) (orderId : string) : M (option Response) :=
  let* order := Order_findById_populate orderId in
  match order with
  | None => ret (Some (Json 404 (BMessage "Không tìm thấy đơn hàng")))
  | Some order =>
      if negb (bool_decide (po_status order = Paid)) then
        ret (Some (Json 400 (BMessage "Only paid orders can be canceled.")))
      else
        let refundAmount := refund_of (po_totalAmount order) in
        for_of (po_items order) (cancel_item env orderId order refundAmount)
  end.

Definition cancel_order (env : Env) (orderId : string)
    : Runtime -> option Response * Runtime :=
  try_catch (cancel_order_try env orderId)
            (fun e => Some (Json 500 (BError "Lỗi máy chủ" e))).

(** ** GET /vnpay-return (orderRoute.js, lines 320-335) *)

Definition payment_success_url : string := "https://yourwebsite.com/payment-success".
Definition payment_failed_url : string := "https://yourwebsite.com/payment-failed".

Definition vnpay_return_try (vnp_ResponseCode vnp_TxnRef : string) : M Response :=
  if String.eqb vnp_ResponseCode "00" then
    Order_findByIdAndUpdate vnp_TxnRef Paid ;;
    ret (Redirect payment_success_url)
  else
    ret (Redirect payment_failed_url).

Definition vnpay_return (vnp_ResponseCode vnp_TxnRef : string)
    : Runtime -> Response * Runtime :=
  try_catch (vnpay_return_try vnp_ResponseCode vnp_TxnRef)
            (fun e => Json 500 (BError "Server error." e)).

(** ** GET /account/:id (orderRoute.js, lines 214-221) *)





(** ** The role gate (src/middleware/roleMiddleware.js) *)

Definition is_space (c : ascii) : bool := Ascii.eqb c " "%char.

(** [s.split(" ")]. *)
Fixpoint split_space (s : string) : list string :=
  match s with
  | EmptyString => [EmptyString]
  | String c rest =>
      if is_space c then EmptyString :: split_space rest
      else match split_space rest with
           | w :: ws => String c w :: ws
           | [] => [String c EmptyString]
           end
  end.

(** [req.headers.authorization && req.headers.authorization.split(" ")[1]]:
    [None] is [undefined]. *)
Definition bearer_token (authorization : option string) : option string :=
  match authorization with
  | None => None
  | Some h => if String.eqb h "" then Some "" else nth_error (split_space h) 1
  end.

(** The payload [jwt.verify] returns; [role] is [None] when the payload
    carries none. *)
Record Decoded := { role : option string }.

(** [allowedRoles.includes(req.user.role)]. *)
Definition includes (allowedRoles : list string) (r : option string) : bool :=
  match r with
  | Some r => existsb (String.eqb r) allowedRoles
  | None => false
  end.

(** What the gate does with a request: hands it on with [req.user] set,
    or answers it. *)
Inductive Gate :=
| Next (user : Decoded)
| Reply (code : Z) (message : string).

(** [jwt_verify] is [jwt.verify(token, process.env.JWT_SECRET)]; [None]:
    the call throws. *)
Definition roleMiddleware (jwt_verify : string -> option Decoded)
    (allowedRoles : list string) (authorization : option string) : Gate :=
  let token := bearer_token authorization in
  if falsy token then Reply 401 "Missing token!"
  else
    match jwt_verify (default "" token) with
    | None => Reply 400 "Invalid token."
    | Some decoded =>
        if negb (includes allowedRoles (role decoded)) then
          Reply 403 "Access denied. You do not have permission to access this resource."
        else Next decoded
    end.

Fixpoint no_space (s : string) : bool :=
  match s with
  | EmptyString => true
  | String c rest => negb (is_space c) && no_space rest
  end.

(** ** Sequences of requests *)

Inductive Request :=
| AddToCart (env : Env) (body : CartBody)
| CancelOrder (env : Env) (orderId : string)
| VnpayReturn (vnp_ResponseCode vnp_TxnRef : string).

(** One request, served with the persistence budget [fail_at]. *)
Definition serve (fail_at : option nat) (r : Request) (rt : Runtime) : Runtime :=
  let rt := set_budget fail_at rt in
  match r with
  | AddToCart env body => snd (add_to_cart env body rt)
  | CancelOrder env orderId => snd (cancel_order env orderId rt)
  | VnpayReturn code ref => snd (vnpay_return code ref rt)
  end.

Fixpoint run (rs : list (option nat * Request)) (rt : Runtime) : Runtime :=
  match rs with
  | [] => rt
  | (fail_at, r) :: rest => run rest (serve fail_at r rt)
  end.

(** ** Sample data *)

Definition id_A : string := "aaaaaaaaaaaaaaaaaaaaaaaa".
Definition id_B : string := "bbbbbbbbbbbbbbbbbbbbbbbb".
Definition id_account : string := "64f8a6d123abc4567e891011".
Definition id_promotion : string := "cccccccccccccccccccccccc".
Definition id_order : string := "0123456789abcdef01234567".

Definition sample_env : Env :=
  {| new_order_id := id_order;
     buildPaymentUrl := fun _ ref => Some ("https://sandbox.vnpayment.vn/?vnp_TxnRef=" +:+ ref);
     refundTemplate := Some "<html></html>" |}.


(** Product P of the specification's scenario: quantity 10, price 100. *)
Definition shop : Runtime :=
  {| products := {[ id_A := Product.mk "Serum" 10 100 ]};
     orders := ∅; outbox := []; budget := None |}.

Definition two_product_shop : Runtime :=
  {| products := {[ id_A := Product.mk "Serum" 10 100; id_B := Product.mk "Toner" 2 50 ]};
     orders := ∅; outbox := []; budget := None |}.

Definition cart (promotion : option string) (its : list Item.t) : CartBody :=
  {| account := Some id_account; items := Some its; promotion := promotion |}.

(** A paid order for 3 units of A and 2 of B, total 1000, after its stock
    was reserved. *)
Definition paid_order : Order.t :=
  Order.mk id_account Paid [Item.mk id_A 3; Item.mk id_B 2] (Some id_promotion) 1000.

Definition paid_shop : Runtime :=
  {| products := {[ id_A := Product.mk "Serum" 7 300; id_B := Product.mk "Toner" 0 50 ]};
     orders := {[ id_order := paid_order ]};
     outbox := []; budget := None |}.

Definition canceled_shop : Runtime :=
  {| products := {[ id_A := Product.mk "Serum" 10 100 ]};
     orders := {[ id_order :=
                  Order.mk id_account Canceled [Item.mk id_A 3] (Some id_promotion) 300 ]};
     outbox := []; budget := None |}.

Definition pending_shop : Runtime :=
  {| products := {[ id_A := Product.mk "Serum" 7 100 ]};
     orders := {[ id_order :=
                  Order.mk id_account Pending [Item.mk id_A 3] (Some id_promotion) 300 ]};
     outbox := []; budget := None |}.

(** ** What the claims speak of *)

(** A line item the store cannot satisfy: its product does not exist, or
    it asks for more than the product's persisted quantity. *)
Definition unsatisfiable (ps : gmap string Product.t) (it : Item.t) : bool :=
  match ps !! Item.product it with
  | None => true
  | Some p => Product.quantity p <? Item.quantity it
  end.

(** The rejection the handler sends for an unsatisfiable line item. *)
Definition rejection_of (ps : gmap string Product.t) (it : Item.t) : Response :=
  match ps !! Item.product it with
  | None => Json 404 (BMessage (not_found_message (Item.product it)))
  | Some p =>
      Json 400 (BMessage
        (stock_message (Product.name p) (Product.quantity p) (Item.quantity it)))
  end.





Definition status_code (r : Response) : option Z :=
  match r with
  | Json code _ => Some code
  | Redirect _ => None
  end.

(** Every stored quantity is non-negative and every stored line item asks
    for at least one unit. *)
Definition stock_ok (rt : Runtime) : Prop :=
  (forall id p, products rt !! id = Some p -> 0 <= Product.quantity p) /\
  (forall id o it, orders rt !! id = Some o -> In it (Order.items o) -> 1 <= Item.quantity it).

(** Units of product [id] a list of line items asks for. *)
Fixpoint reserved_for (id : string) (its : list Item.t) : Z :=
  match its with
  | [] => 0
  | it :: rest =>
      (if String.eqb (Item.product it) id then Item.quantity it else 0) + reserved_for id rest
  end.

(** Triples for the exception monad: started in a store that satisfies
    [P], the computation returns some [a] in a store that satisfies [Q a],
    or throws in a store that satisfies [E]. *)
Definition triple {A} (P : Runtime -> Prop) (c : M A) (Q : A -> Runtime -> Prop)
    (E : Runtime -> Prop) : Prop :=
  forall rt, P rt ->
    match c rt with
    | (Val a, rt') => Q a rt'
    | (Thrown _, rt') => E rt'
    end.

Definition nonneg_writes (u : list (string * Product.t)) : Prop :=
  Forall (fun w => 0 <= Product.quantity (snd w)) u.

Definition positive_items (its : list Item.t) : Prop :=
  Forall (fun it => 1 <= Item.quantity it) its.



(** ** The exception monad and the persistence operations *)

Ltac unfold_monad :=
  unfold add_to_cart, cancel_order, vnpay_return, try_catch,
    Order_create, validate_order, Order_findById_populate, Order_save_status,
    Order_findByIdAndUpdate, Product_findById, Product_find, Product_save,
    build_payment_url, read_refund_template, read_identifier, cast_id,
    bind, ret, throw, tick, get_products, get_orders, put_products, put_orders,
    push_mail in *.

Lemma cart_loop_store (its : list Item.t) :
  forall t u rt,
    products (snd (cart_loop its t u rt)) = products rt /\
    orders (snd (cart_loop its t u rt)) = orders rt /\
    outbox (snd (cart_loop its t u rt)) = outbox rt.
Proof.
  induction its as [|it rest IH]; intros t u rt; simpl; [easy|].
  unfold_monad.
  destruct (is_object_id (Item.product it)); [|easy].
  destruct (budget rt) as [[|n]|]; simpl; try easy.
  - destruct (products rt !! Item.product it) as [p|]; [|easy].
    destruct (Product.quantity p <? Item.quantity it); [easy|].
    apply (IH _ _ (set_budget (Some n) rt)).
  - destruct (products rt !! Item.product it) as [p|]; [|easy].
    destruct (Product.quantity p <? Item.quantity it); [easy|].
    apply IH.
Qed.

Lemma rejection_of_code ps it :
  status_code (rejection_of ps it) = Some 404 \/ status_code (rejection_of ps it) = Some 400.
Proof. unfold rejection_of. destruct (ps !! Item.product it); simpl; auto. Qed.

(** A response that leaves the first loop is the rejection of one of the
    cart's unsatisfiable line items. *)
Lemma cart_loop_inl (its : list Item.t) :
  forall t u rt resp rt',
    cart_loop its t u rt = (Val (inl resp), rt') ->
    exists it, In it its /\ unsatisfiable (products rt) it = true /\
               resp = rejection_of (products rt) it.
Proof.
  induction its as [|it rest IH]; intros t u rt resp rt'; simpl; [unfold ret; congruence|].
  unfold_monad. unfold unsatisfiable, rejection_of.
  destruct (is_object_id (Item.product it)); [|congruence].
  destruct (budget rt) as [[|n]|]; simpl; try congruence.
  - destruct (products rt !! Item.product it) as [p|] eqn:Ep.
    + destruct (Product.quantity p <? Item.quantity it) eqn:Eq.
      * intros [= <- <-]. exists it. rewrite Ep, Eq. auto.
      * intros H. apply IH in H as (it' & Hin & Hu & ->). exists it'. auto.
    + intros [= <- <-]. exists it. rewrite Ep. auto.
  - destruct (products rt !! Item.product it) as [p|] eqn:Ep.
    + destruct (Product.quantity p <? Item.quantity it) eqn:Eq.
      * intros [= <- <-]. exists it. rewrite Ep, Eq. auto.
      * intros H. apply IH in H as (it' & Hin & Hu & ->). exists it'. auto.
    + intros [= <- <-]. exists it. rewrite Ep. auto.
Qed.





(** *** A cart that passes both checks *)






(** *** What the second loop leaves in the store *)




(** *** A submission that carries no promotion id *)

Lemma save_products_orders (l : list (string * Product.t)) :
  forall rt, orders (snd (save_products l rt)) = orders rt.
Proof.
  induction l as [|[id p] rest IH]; intros rt; simpl; [reflexivity|].
  unfold_monad. destruct (budget rt) as [[|n]|]; simpl; [reflexivity| |].
  - rewrite IH. reflexivity.
  - rewrite IH. reflexivity.
Qed.

Lemma validate_items_store (its : list Item.t) :
  forall rt, snd (validate_items its rt) = rt.
Proof.
  induction its as [|it rest IH]; intros rt; simpl; [reflexivity|].
  unfold_monad.
  destruct (is_object_id (Item.product it)); [|reflexivity].
  destruct (Item.quantity it <? 1); [reflexivity|]. apply IH.
Qed.

(** The default the handler gives an absent [promotion] is the string
    "None", which does not cast to an ObjectId: creating the order throws
    and writes nothing. *)
Lemma Order_create_default_promotion (id acc : string) (its : list Item.t) (t : Z)
    (rt : Runtime) :
  exists e, Order_create id acc its "None" t rt = (Thrown e, rt).
Proof.
  unfold Order_create, validate_order. unfold bind at 1. unfold bind at 1.
  unfold cast_id at 1. destruct (is_object_id acc).
  - unfold ret at 1. unfold bind at 1.
    pose proof (validate_items_store its rt) as Hst.
    destruct (validate_items its rt) as [[[]|e] rt1]; simpl in Hst; subst rt1.
    + exists (CastError "promotion" "None"). reflexivity.
    + exists e. reflexivity.
  - exists (CastError "account" acc). reflexivity.
Qed.

Lemma add_to_cart_try_without_promotion (env : Env) (body : CartBody) (rt : Runtime)
    (r : Res Response) (rt' : Runtime) :
  promotion body = None ->
  add_to_cart_try env body rt = (r, rt') ->
  (forall v o, r <> Val (Json 201 (BPayment v o))) /\ orders rt' = orders rt.
Proof.
  intros Hpromo H. unfold add_to_cart_try in H. rewrite Hpromo in H. simpl in H.
  destruct (account body) as [acc|];
    [|injection H as <- <-; split; [discriminate|reflexivity]].
  destruct (items body) as [its|];
    [|injection H as <- <-; split; [discriminate|reflexivity]].
  destruct (_ || _); [injection H as <- <-; split; [discriminate|reflexivity]|].
  unfold bind at 1 in H.
  pose proof (cart_loop_store its 0 [] rt) as (_ & Ho & _).
  destruct (cart_loop its 0 [] rt) as [[[resp|[t u]]|e] rt1] eqn:Hloop; simpl in Ho.
  - apply cart_loop_inl in Hloop as (it & _ & _ & ->). injection H as <- <-.
    split; [|exact Ho].
    intros v o [= Heq]. destruct (rejection_of_code (products rt) it) as [H|H];
      rewrite Heq in H; discriminate.
  - unfold bind at 1 in H.
    pose proof (save_products_orders u rt1) as Hs.
    destruct (save_products u rt1) as [[[]|e] rt2]; simpl in Hs.
    + unfold bind at 1 in H.
      destruct (Order_create_default_promotion (new_order_id env) acc its t rt2) as [e He].
      rewrite He in H. injection H as <- <-. split; [discriminate|congruence].
    + injection H as <- <-. split; [discriminate|congruence].
  - injection H as <- <-. split; [discriminate|exact Ho].
Qed.

(** X3. A submission without a promotion id is never answered 201 and never
    creates an order. *)
Lemma add_to_cart_without_promotion (env : Env) (body : CartBody) (rt : Runtime) :
  promotion body = None ->
  (forall v o, fst (add_to_cart env body rt) <> Json 201 (BPayment v o)) /\
  orders (snd (add_to_cart env body rt)) = orders rt.
Proof.
  intros Hpromo. unfold add_to_cart, try_catch.
  destruct (add_to_cart_try env body rt) as [r rt'] eqn:E.
  destruct (add_to_cart_try_without_promotion _ _ _ _ _ Hpromo E) as [Hr Ho].
  destruct r as [resp|e]; simpl; split; auto; try discriminate.
  intros v o ->. apply (Hr v o). reflexivity.
Qed.

(** ** Order placement *)

(** C6. The specification's scenario (product P with quantity 10 and price
    100, a cart asking for 3 units, no promotion id): the handler answers
    500 for the cast of the default promotion "None", persists no order,
    and leaves P's quantity decremented to 7. *)
Theorem add_to_cart_scenario_fails :
  fst (add_to_cart sample_env (cart None [Item.mk id_A 3]) shop) =
    Json 500 (BError "Server error." (CastError "promotion" "None")) /\
  orders (snd (add_to_cart sample_env (cart None [Item.mk id_A 3]) shop)) = ∅ /\
  products (snd (add_to_cart sample_env (cart None [Item.mk id_A 3]) shop)) !! id_A =
    Some (Product.mk "Serum" 7 100).
Proof. vm_compute. repeat split; reflexivity. Qed.

(** C7. The same satisfiable two-line cart, once with a promotion id and
    once without: with the id the order is placed (201, a Pending order
    under the new id); without it the handler answers 500 and persists no
    order, although both products were already written. *)
Theorem add_to_cart_promotion_not_optional :
  let with_id :=
    add_to_cart sample_env (cart (Some id_promotion) [Item.mk id_A 1; Item.mk id_B 2])
                two_product_shop in
  let without :=
    add_to_cart sample_env (cart None [Item.mk id_A 1; Item.mk id_B 2]) two_product_shop in
  status_code (fst with_id) = Some 201 /\
  Order.status <$> (orders (snd with_id) !! id_order) = Some Pending /\
  fst without = Json 500 (BError "Server error." (CastError "promotion" "None")) /\
  orders (snd without) !! id_order = None /\
  Product.quantity <$> (products (snd without) !! id_A) = Some 9 /\
  Product.quantity <$> (products (snd without) !! id_B) = Some 0.
Proof. vm_compute. repeat split; reflexivity. Qed.

(** C5. A cart whose two line items both name product P (quantity 10), 6
    units each: both lines pass the stock check against the stored
    quantity, the order is placed for 12 units, and P's quantity is written
    twice as 10 - 6, so it ends at 4. *)
Theorem add_to_cart_duplicate_lines_oversell :
  let served :=
    add_to_cart sample_env (cart (Some id_promotion) [Item.mk id_A 6; Item.mk id_A 6]) shop in
  status_code (fst served) = Some 201 /\
  (reserved_for id_A ∘ Order.items) <$> (orders (snd served) !! id_order) = Some 12 /\
  Product.quantity <$> (products shop !! id_A) = Some 10 /\
  Product.quantity <$> (products (snd served) !! id_A) = Some 4.
Proof. vm_compute. repeat split; reflexivity. Qed.




(** ** Order cancellation *)

Lemma account_unbound : existsb (String.eqb "account") cancel_scope = false.
Proof. reflexivity. Qed.

(** The loop body never reaches its [return]: whatever the store, it has
    thrown by the time [account.email] is read. *)
Lemma cancel_item_throws (env : Env) (orderId : string) (order : PopulatedOrder)
    (refund : Q) (item : PopulatedItem) (rt : Runtime) :
  exists e rt', cancel_item env orderId order refund item rt = (Thrown e, rt').
Proof.
  unfold cancel_item. unfold_monad. rewrite account_unbound.
  destruct (pi_product item) as [[id p]|]; [|eauto].
  destruct rt as [ps os ob bd]; simpl.
  destruct bd as [[|[|[|n]]]|]; simpl;
    destruct (ps !! id); simpl;
    destruct (refundTemplate env); simpl; eauto.
Qed.

Lemma for_of_throwing_body {A} (body : A -> M (option Response)) :
  (forall x rt, exists e rt', body x rt = (Thrown e, rt')) ->
  forall l rt,
    for_of l body rt = (Val None, rt) \/ exists e rt', for_of l body rt = (Thrown e, rt').
Proof.
  intros Hbody l rt. destruct l as [|x rest]; simpl; [left; reflexivity|].
  right. unfold bind. destruct (Hbody x rt) as (e & rt' & ->). eauto.
Qed.

(** The [try] block of the cancellation handler yields a response only on
    its two rejections, and then without having written anything. *)
Lemma cancel_order_try_response (env : Env) (orderId : string) (rt : Runtime)
    (resp : Response) (rt' : Runtime) :
  cancel_order_try env orderId rt = (Val (Some resp), rt') ->
  products rt' = products rt /\ orders rt' = orders rt /\ outbox rt' = outbox rt /\
  (resp = Json 404 (BMessage "Không tìm thấy đơn hàng") /\ orders rt !! orderId = None \/
   resp = Json 400 (BMessage "Only paid orders can be canceled.") /\
   exists o, orders rt !! orderId = Some o /\ Order.status o <> Paid).
Proof.
  unfold cancel_order_try. unfold bind at 1.
  unfold Order_findById_populate. unfold_monad.
  destruct (is_object_id orderId); [|discriminate].
  destruct (budget rt) as [[|n]|]; simpl; try discriminate;
    (destruct (orders rt !! orderId) as [o|] eqn:Ho; simpl;
     [|intros [= <- <-]; repeat split; auto]);
    (destruct (bool_decide (Order.status o = Paid)) eqn:Hs; simpl).
  1,3: intros H; exfalso;
    match type of H with for_of ?l ?b ?r = _ =>
      destruct (for_of_throwing_body b (cancel_item_throws _ _ _ _) l r)
        as [H'|(e & rt1 & H')]; rewrite H' in H; discriminate
    end.
  all: intros [= <- <-]; repeat split; auto; right; split; [reflexivity|];
    exists o; split; [reflexivity|]; apply bool_decide_eq_false in Hs; exact Hs.
Qed.

(** X10. The cancellation handler never answers 200. *)
Lemma cancel_order_never_succeeds (env : Env) (orderId : string) (rt : Runtime) (b : Body) :
  fst (cancel_order env orderId rt) <> Some (Json 200 b).
Proof.
  unfold cancel_order, try_catch.
  destruct (cancel_order_try env orderId rt) as [[[resp|]|e] rt'] eqn:E; simpl;
    try discriminate.
  apply cancel_order_try_response in E as (_ & _ & _ & [[-> _]|[-> _]]); discriminate.
Qed.

Lemma refund_of_1000 : refund_of 1000 = 500%Q.
Proof. reflexivity. Qed.

(** C1. A Paid order of total 1000 with two line items (3 of A, 2 of B):
    the claim promises a 200 carrying refundAmount 500 and both products
    restored; the handler restores A only (7 to 10), leaves B at 0, sets
    the status to Canceled, sends no mail, and answers 500 for reading the
    unbound identifier [account]. *)
Theorem cancel_order_paid_fails :
  let served := cancel_order sample_env id_order paid_shop in
  Order.status <$> (orders paid_shop !! id_order) = Some Paid /\
  fst served = Some (Json 500 (BError "Lỗi máy chủ" (ReferenceError "account"))) /\
  Order.status <$> (orders (snd served) !! id_order) = Some Canceled /\
  Product.quantity <$> (products (snd served) !! id_A) = Some 10 /\
  Product.quantity <$> (products (snd served) !! id_B) = Some 0 /\
  outbox (snd served) = [].
Proof. vm_compute. repeat split; reflexivity. Qed.

(** C3, as the claim states it, fails.  The cancellation of a Paid order
    ends in a 500 and yet the store has changed: with no persistence
    failure the status is Canceled while B's stock is not restored; when
    the fourth persistence operation (saving the order) throws, A's stock
    is restored while the status is still Paid. *)
Lemma cancel_order_not_atomic :
  let served := cancel_order sample_env id_order paid_shop in
  let interrupted := cancel_order sample_env id_order (set_budget (Some 3%nat) paid_shop) in
  status_code <$> fst served = Some (Some 500) /\
  Order.status <$> (orders (snd served) !! id_order) = Some Canceled /\
  products (snd served) !! id_B = products paid_shop !! id_B /\
  status_code <$> fst interrupted = Some (Some 500) /\
  Order.status <$> (orders (snd interrupted) !! id_order) = Some Paid /\
  Product.quantity <$> (products paid_shop !! id_A) = Some 7 /\
  Product.quantity <$> (products (snd interrupted) !! id_A) = Some 10.
Proof. vm_compute. repeat split; reflexivity. Qed.

(** C3, amended. A cancellation request answered 404 or 400 leaves every
    product and every order exactly as it was. *)
Theorem cancel_order_rejection_leaves_store (env : Env) (orderId : string) (rt : Runtime)
    (resp : Response) (rt' : Runtime) :
  cancel_order env orderId rt = (Some resp, rt') ->
  status_code resp = Some 404 \/ status_code resp = Some 400 ->
  products rt' = products rt /\ orders rt' = orders rt.
Proof.
  unfold cancel_order, try_catch.
  destruct (cancel_order_try env orderId rt) as [[[r|]|e] rt1] eqn:E.
  - intros [= <- <-] _. apply cancel_order_try_response in E as (Hp & Ho & _). auto.
  - discriminate.
  - intros [= <- <-] [H|H]; discriminate H.
Qed.

Lemma cancel_order_rejection_leaves_store_witness :
  products (snd (cancel_order sample_env id_order pending_shop)) = products pending_shop /\
  orders (snd (cancel_order sample_env id_order pending_shop)) = orders pending_shop.
Proof.
  apply (cancel_order_rejection_leaves_store sample_env id_order pending_shop
           (Json 400 (BMessage "Only paid orders can be canceled."))).
  - reflexivity.
  - right. reflexivity.
Defined.



(** ** Payment callback *)




(** C2, as the claim states it, fails: a success callback for a Canceled
    order is answered with the success redirect and moves the order to
    Paid. *)
Lemma vnpay_return_revives_canceled_order :
  Order.status <$> (orders canceled_shop !! id_order) = Some Canceled /\
  fst (vnpay_return "00" id_order canceled_shop) = Redirect payment_success_url /\
  Order.status <$> (orders (snd (vnpay_return "00" id_order canceled_shop)) !! id_order) =
    Some Paid /\
  orders (snd (vnpay_return "00" id_order canceled_shop)) <> orders canceled_shop.
Proof. vm_compute. repeat split; try reflexivity. discriminate. Qed.

Lemma with_status_same (o : Order.t) : Order.with_status (Order.status o) o = o.
Proof. destruct o; reflexivity. Qed.

(** C2, amended. A success callback sets the referenced order's status to
    Paid whatever its current status: a Pending order becomes Paid, a
    Canceled order becomes Paid as well, and for an order that is already
    Paid nothing changes; the answer is the success redirect in each case,
    no other field of the order and no product is written. *)
Theorem vnpay_return_success_sets_paid (ref : string) (rt : Runtime) (o : Order.t) :
  is_object_id ref = true ->
  budget rt <> Some 0%nat ->
  orders rt !! ref = Some o ->
  fst (vnpay_return "00" ref rt) = Redirect payment_success_url /\
  products (snd (vnpay_return "00" ref rt)) = products rt /\
  orders (snd (vnpay_return "00" ref rt)) = <[ref := Order.with_status Paid o]> (orders rt) /\
  (Order.status o = Paid -> orders (snd (vnpay_return "00" ref rt)) = orders rt).
Proof.
  intros Hid Hb Ho.
  assert (Halt : alter (Order.with_status Paid) ref (orders rt) =
                 <[ref := Order.with_status Paid o]> (orders rt)).
  { rewrite alter_alt, Ho. reflexivity. }
  unfold vnpay_return, try_catch, vnpay_return_try. unfold_monad. simpl.
  rewrite Hid.
  destruct rt as [ps os ob bd]; simpl in *.
  destruct bd as [[|n]|]; [congruence| |]; simpl; rewrite Halt; repeat split;
    intros Hs; apply insert_id; rewrite Ho, <- Hs, with_status_same; reflexivity.
Qed.

Lemma vnpay_return_success_sets_paid_witness :
  fst (vnpay_return "00" id_order pending_shop) = Redirect payment_success_url /\
  orders (snd (vnpay_return "00" id_order pending_shop)) !! id_order =
    Some (Order.mk id_account Paid [Item.mk id_A 3] (Some id_promotion) 300).
Proof.
  assert (Hb : @None nat <> Some 0%nat) by discriminate.
  destruct (vnpay_return_success_sets_paid id_order pending_shop
              (Order.mk id_account Pending [Item.mk id_A 3] (Some id_promotion) 300)
              eq_refl Hb eq_refl) as (Hr & _ & Ho & _).
  split; [exact Hr|]. rewrite Ho. reflexivity.
Defined.

(** ** Stock never goes negative *)

Lemma triple_bind {A B} (P : Runtime -> Prop) (c : M A) (Q : A -> Runtime -> Prop)
    (k : A -> M B) (R : B -> Runtime -> Prop) (E : Runtime -> Prop) :
  triple P c Q E ->
  (forall a, triple (Q a) (k a) R E) ->
  triple P (bind c k) R E.
Proof.
  intros Hc Hk rt HP. unfold bind. specialize (Hc rt HP).
  destruct (c rt) as [[a|e] rt1]; [|exact Hc].
  apply (Hk a rt1 Hc).
Qed.

Lemma triple_weaken {A} (P P' : Runtime -> Prop) (c : M A) (Q Q' : A -> Runtime -> Prop)
    (E : Runtime -> Prop) :
  triple P' c Q' E ->
  (forall rt, P rt -> P' rt) ->
  (forall a rt, Q' a rt -> Q a rt) ->
  triple P c Q E.
Proof.
  intros Hc HP HQ rt Hrt. specialize (Hc rt (HP rt Hrt)).
  destruct (c rt) as [[a|e] rt1]; auto.
Qed.

Lemma triple_ret {A} (P : Runtime -> Prop) (a : A) (E : Runtime -> Prop) :
  triple P (ret a) (fun b rt => b = a /\ P rt) E.
Proof. intros rt HP. simpl. auto. Qed.

Lemma triple_throw {A} (P : Runtime -> Prop) (e : Exn) (Q : A -> Runtime -> Prop) :
  triple P (throw e) Q P.
Proof. intros rt HP. exact HP. Qed.

Lemma stock_ok_write (id : string) (p : Product.t) (rt : Runtime) :
  0 <= Product.quantity p -> stock_ok rt ->
  stock_ok (set_products (<[id := p]> (products rt)) rt).
Proof.
  intros Hq [Hp Ho]. split; simpl; [|exact Ho].
  intros id' p' Hl. apply lookup_insert_Some in Hl as [[_ <-]|[_ Hl]]; eauto.
Qed.

Lemma stock_ok_status (id : string) (s : Status) (rt : Runtime) :
  stock_ok rt -> stock_ok (set_orders (alter (Order.with_status s) id (orders rt)) rt).
Proof.
  intros [Hp Ho]. split; simpl; [exact Hp|].
  intros id' o it Hl Hin.
  apply lookup_alter_Some in Hl as [(_ & o' & Hl & ->)|[_ Hl]]; eauto.
Qed.

Lemma tick_ok : triple stock_ok tick (fun _ => stock_ok) stock_ok.
Proof. intros rt H. unfold tick. destruct (budget rt) as [[|n]|]; exact H. Qed.

Lemma cast_id_ok (path value : string) :
  triple stock_ok (cast_id path value) (fun _ => stock_ok) stock_ok.
Proof. intros rt H. unfold cast_id. destruct (is_object_id value); exact H. Qed.

Lemma Product_find_ok (id : string) :
  triple stock_ok (Product_find id)
    (fun p rt => stock_ok rt /\ forall x, p = Some x -> 0 <= Product.quantity x) stock_ok.
Proof.
  apply triple_bind with (Q := fun _ => stock_ok); [apply tick_ok|].
  intros ? rt H. unfold_monad. split; [exact H|].
  intros x Hx. destruct H as [Hp _]. eauto.
Qed.

Lemma Product_findById_ok (id : string) :
  triple stock_ok (Product_findById id)
    (fun p rt => stock_ok rt /\ forall x, p = Some x -> 0 <= Product.quantity x) stock_ok.
Proof.
  apply triple_bind with (Q := fun _ => stock_ok); [apply cast_id_ok|].
  intros ?. apply Product_find_ok.
Qed.

Lemma Product_save_ok (id : string) (p : Product.t) :
  0 <= Product.quantity p ->
  triple stock_ok (Product_save id p) (fun _ => stock_ok) stock_ok.
Proof.
  intros Hq. apply triple_bind with (Q := fun _ => stock_ok); [apply tick_ok|].
  intros ? rt H. unfold_monad. apply stock_ok_write; assumption.
Qed.

Lemma Order_save_status_ok (id : string) (s : Status) :
  triple stock_ok (Order_save_status id s) (fun _ => stock_ok) stock_ok.
Proof.
  apply triple_bind with (Q := fun _ => stock_ok); [apply tick_ok|].
  intros ? rt H. unfold_monad. apply stock_ok_status, H.
Qed.

Lemma Order_findByIdAndUpdate_ok (id : string) (s : Status) :
  triple stock_ok (Order_findByIdAndUpdate id s) (fun _ => stock_ok) stock_ok.
Proof.
  apply triple_bind with (Q := fun _ => stock_ok); [apply cast_id_ok|].
  intros ?. apply triple_bind with (Q := fun _ => stock_ok); [apply tick_ok|].
  intros ? rt H. unfold_monad. apply stock_ok_status, H.
Qed.

Lemma cart_loop_ok (its : list Item.t) :
  forall t u,
    nonneg_writes u ->
    triple stock_ok (cart_loop its t u)
      (fun r rt => stock_ok rt /\ forall t' u', r = inr (t', u') -> nonneg_writes u')
      stock_ok.
Proof.
  induction its as [|it rest IH]; intros t u Hu; simpl.
  - intros rt H. simpl. split; [exact H|]. intros t' u' [= _ <-]. exact Hu.
  - eapply triple_bind; [apply Product_findById_ok|].
    intros [p|]; simpl.
    + destruct (Product.quantity p <? Item.quantity it) eqn:Hq.
      * intros rt [H _]. simpl. split; [exact H|]. discriminate.
      * eapply triple_weaken with (P' := stock_ok);
          [apply IH | intros rt [H _]; exact H | auto].
        apply Forall_app. split; [exact Hu|].
        apply Forall_cons. split; [|apply Forall_nil_2].
        simpl. apply Z.ltb_ge in Hq. lia.
    + intros rt [H _]. simpl. split; [exact H|]. discriminate.
Qed.

Lemma save_products_ok (u : list (string * Product.t)) :
  nonneg_writes u ->
  triple stock_ok (save_products u) (fun _ => stock_ok) stock_ok.
Proof.
  induction u as [|[id p] rest IH]; intros Hu; simpl.
  - intros rt H. exact H.
  - apply Forall_cons in Hu as [Hp Hu].
    eapply triple_bind; [apply Product_save_ok, Hp|].
    intros ?. apply IH, Hu.
Qed.

Lemma validate_items_ok (its : list Item.t) :
  triple stock_ok (validate_items its)
    (fun _ rt => stock_ok rt /\ positive_items its) stock_ok.
Proof.
  induction its as [|it rest IH]; simpl.
  - intros rt H. simpl. split; [exact H|apply Forall_nil_2].
  - eapply triple_bind; [apply cast_id_ok|]. intros ?.
    destruct (Item.quantity it <? 1) eqn:Hq.
    + intros rt H. exact H.
    + eapply triple_bind; [apply triple_ret|]. intros ?.
      eapply triple_weaken; [apply IH | intros rt [_ H]; exact H |].
      intros ? rt [H Hrest]. split; [exact H|].
      apply Forall_cons. split; [apply Z.ltb_ge, Hq | exact Hrest].
Qed.

Lemma stock_ok_new_order (id : string) (o : Order.t) (rt : Runtime) :
  positive_items (Order.items o) -> stock_ok rt ->
  stock_ok (set_orders (<[id := o]> (orders rt)) rt).
Proof.
  intros Hits [Hp Ho]. split; simpl; [exact Hp|].
  intros id' o' it Hl Hin.
  apply lookup_insert_Some in Hl as [[_ <-]|[_ Hl]]; [|eauto].
  unfold positive_items in Hits. rewrite Forall_forall in Hits.
  apply Hits, list_elem_of_In, Hin.
Qed.

Lemma Order_create_ok (id acc : string) (its : list Item.t) (promo : string) (t : Z) :
  triple stock_ok (Order_create id acc its promo t) (fun _ => stock_ok) stock_ok.
Proof.
  unfold Order_create, validate_order.
  apply triple_bind with (Q := fun _ rt => stock_ok rt /\ positive_items its).
  - eapply triple_bind; [apply cast_id_ok|]. intros ?.
    eapply triple_bind; [apply validate_items_ok|]. intros ? rt [H Hits].
    unfold cast_id. destruct (is_object_id promo); simpl; auto.
  - intros ?.
    apply triple_bind with (Q := fun _ rt => stock_ok rt /\ positive_items its).
    + intros rt [H Hits]. unfold tick. destruct (budget rt) as [[|n]|]; auto.
    + intros ? rt [H Hits]. unfold_monad.
      destruct (orders rt !! id); [exact H|].
      apply stock_ok_new_order; assumption.
Qed.

Lemma add_to_cart_try_ok (env : Env) (body : CartBody) :
  triple stock_ok (add_to_cart_try env body) (fun _ => stock_ok) stock_ok.
Proof.
  unfold add_to_cart_try.
  destruct (account body) as [acc|]; [|intros rt H; exact H].
  destruct (items body) as [its|]; [|intros rt H; exact H].
  destruct (_ || _); [intros rt H; exact H|].
  eapply triple_bind; [apply cart_loop_ok, Forall_nil_2|].
  intros [resp|[t u]].
  - intros rt [H _]. exact H.
  - apply triple_bind with (Q := fun _ => stock_ok).
    + intros rt [H Hu]. apply save_products_ok; [eapply Hu; reflexivity | exact H].
    + intros ?. eapply triple_bind; [apply Order_create_ok|]. intros ?.
      intros rt H. unfold_monad. destruct (buildPaymentUrl env t (new_order_id env)); exact H.
Qed.

Lemma populate_item_quantity (ps : gmap string Product.t) (it : Item.t) :
  pi_quantity (populate_item ps it) = Item.quantity it.
Proof. reflexivity. Qed.

Lemma Order_findById_populate_ok (id : string) :
  triple stock_ok (Order_findById_populate id)
    (fun o rt => stock_ok rt /\
       forall po item, o = Some po -> In item (po_items po) -> 1 <= pi_quantity item)
    stock_ok.
Proof.
  eapply triple_bind; [apply cast_id_ok|]. intros ?.
  eapply triple_bind; [apply tick_ok|]. intros ?.
  intros rt H. unfold_monad. split; [exact H|].
  intros po item Hpo Hin.
  destruct (orders rt !! id) as [o|] eqn:Ho; [|discriminate].
  injection Hpo as <-. simpl in Hin.
  apply in_map_iff in Hin as (it & <- & Hin).
  rewrite populate_item_quantity. destruct H as [_ H]. eauto.
Qed.

Lemma cancel_item_ok (env : Env) (orderId : string) (order : PopulatedOrder) (refund : Q)
    (item : PopulatedItem) :
  1 <= pi_quantity item ->
  triple stock_ok (cancel_item env orderId order refund item) (fun _ => stock_ok) stock_ok.
Proof.
  intros Hq. unfold cancel_item.
  apply triple_bind with (Q := fun _ => stock_ok).
  { destruct (pi_product item) as [[id p]|]; intros rt H; exact H. }
  intros id. eapply triple_bind; [apply Product_find_ok|].
  intros product. apply triple_bind with (Q := fun _ => stock_ok).
  { destruct product as [p|].
    - intros rt [H Hp]. apply Product_save_ok; [|exact H].
      simpl. specialize (Hp p eq_refl). lia.
    - intros rt [H _]. exact H. }
  intros ?. eapply triple_bind; [apply Order_save_status_ok|].
  intros ? rt H. unfold_monad. rewrite account_unbound.
  destruct (refundTemplate env); exact H.
Qed.

Lemma for_of_ok {A} (l : list A) (body : A -> M (option Response)) :
  (forall x, In x l -> triple stock_ok (body x) (fun _ => stock_ok) stock_ok) ->
  triple stock_ok (for_of l body) (fun _ => stock_ok) stock_ok.
Proof.
  induction l as [|x rest IH]; intros Hbody; simpl.
  - intros rt H. exact H.
  - eapply triple_bind; [apply Hbody; left; reflexivity|].
    intros [resp|].
    + intros rt H. exact H.
    + apply IH. intros y Hy. apply Hbody. right. exact Hy.
Qed.

Lemma cancel_order_try_ok (env : Env) (orderId : string) :
  triple stock_ok (cancel_order_try env orderId) (fun _ => stock_ok) stock_ok.
Proof.
  unfold cancel_order_try.
  eapply triple_bind; [apply Order_findById_populate_ok|].
  intros [po|].
  - destruct (negb _).
    + intros rt [H _]. exact H.
    + intros rt [H Hits]. apply for_of_ok; [|exact H].
      intros item Hin. apply cancel_item_ok. eapply Hits; [reflexivity|exact Hin].
  - intros rt [H _]. exact H.
Qed.

Lemma vnpay_return_try_ok (code ref : string) :
  triple stock_ok (vnpay_return_try code ref) (fun _ => stock_ok) stock_ok.
Proof.
  unfold vnpay_return_try. destruct (String.eqb code "00").
  - eapply triple_bind; [apply Order_findByIdAndUpdate_ok|].
    intros ? rt H. exact H.
  - intros rt H. exact H.
Qed.

Lemma try_catch_ok {A} (c : M A) (handler : Exn -> A) (rt : Runtime) :
  triple stock_ok c (fun _ => stock_ok) stock_ok ->
  stock_ok rt -> stock_ok (snd (try_catch c handler rt)).
Proof.
  intros Hc H. unfold try_catch. specialize (Hc rt H).
  destruct (c rt) as [[a|e] rt']; exact Hc.
Qed.

Lemma serve_stock_ok (fail_at : option nat) (r : Request) (rt : Runtime) :
  stock_ok rt -> stock_ok (serve fail_at r rt).
Proof.
  intros H. assert (H' : stock_ok (set_budget fail_at rt)) by exact H.
  destruct r as [env body|env orderId|code ref]; simpl.
  - apply try_catch_ok; [apply add_to_cart_try_ok|exact H'].
  - apply try_catch_ok; [apply cancel_order_try_ok|exact H'].
  - apply try_catch_ok; [apply vnpay_return_try_ok|exact H'].
Qed.

(** Whatever cart submissions, callbacks and cancellations are served, and
    whichever of their persistence operations fail, every stored quantity
    stays non-negative. *)
Lemma run_stock_ok (rs : list (option nat * Request)) :
  forall rt, stock_ok rt -> stock_ok (run rs rt).
Proof.
  induction rs as [|[fail_at r] rest IH]; intros rt H; simpl; [exact H|].
  apply IH, serve_stock_ok, H.
Qed.

(** X15. Started from a store without orders whose quantities are all
    non-negative, no sequence of cart submissions, payment callbacks and
    cancellations, with any of their persistence operations failing, ever
    leaves a product with a negative quantity. *)
Lemma run_quantity_nonneg (rs : list (option nat * Request)) (rt : Runtime)
    (id : string) (p : Product.t) :
  orders rt = ∅ ->
  (forall id p, products rt !! id = Some p -> 0 <= Product.quantity p) ->
  products (run rs rt) !! id = Some p ->
  0 <= Product.quantity p.
Proof.
  intros Ho Hp Hl.
  assert (H : stock_ok rt).
  { split; [exact Hp|]. intros id' o it Hl'. rewrite Ho in Hl'. discriminate. }
  apply (run_stock_ok rs) in H as [H _]. eauto.
Qed.

(** ** Further properties of order placement *)

(** X1. A body without an account, with an empty account, without items or
    with an empty list of items is answered 400 before any persistence
    operation: nothing of the run is touched, not even its budget. *)
Theorem add_to_cart_incomplete_body (env : Env) (body : CartBody) (rt : Runtime) :
  falsy (account body) = true \/ items body = None \/ items body = Some [] ->
  add_to_cart env body rt = (Json 400 (BMessage empty_cart_message), rt).
Proof.
  intros H. unfold add_to_cart, try_catch, add_to_cart_try.
  destruct (account body) as [acc|]; [|reflexivity].
  destruct (items body) as [its|]; [|reflexivity].
  destruct H as [H|[H|H]].
  - rewrite H. reflexivity.
  - discriminate.
  - injection H as ->. rewrite orb_true_r. reflexivity.
Qed.

Lemma add_to_cart_incomplete_body_witness :
  add_to_cart sample_env (cart (Some id_promotion) []) shop =
    (Json 400 (BMessage empty_cart_message), shop).
Proof.
  apply add_to_cart_incomplete_body. right. right. reflexivity.
Defined.



Lemma add_to_cart_without_promotion_witness :
  (forall v o, fst (add_to_cart sample_env (cart None [Item.mk id_A 3]) shop)
               <> Json 201 (BPayment v o)) /\
  orders (snd (add_to_cart sample_env (cart None [Item.mk id_A 3]) shop)) = orders shop.
Proof.
  apply (add_to_cart_without_promotion sample_env (cart None [Item.mk id_A 3]) shop).
  reflexivity.
Defined.

(** *** What a submission leaves alone *)












(** *** Quantities below one, and malformed product ids *)





Lemma cart_loop_malformed (its : list Item.t) :
  forall t u rt v,
    existsb (fun it => negb (is_object_id (Item.product it))) its = true ->
    fst (cart_loop its t u rt) <> Val (inr v).
Proof.
  induction its as [|it rest IH]; intros t u rt v; simpl; [discriminate|].
  unfold_monad.
  destruct (is_object_id (Item.product it)); [|discriminate].
  destruct (budget rt) as [[|n]|]; simpl; try discriminate.
  - destruct (products rt !! Item.product it) as [p|]; [|discriminate].
    destruct (Product.quantity p <? Item.quantity it); [discriminate|].
    intros H. apply (IH _ _ (set_budget (Some n) rt)). exact H.
  - destruct (products rt !! Item.product it) as [p|]; [|discriminate].
    destruct (Product.quantity p <? Item.quantity it); [discriminate|].
    intros H. apply IH. exact H.
Qed.

(** X6. A line item whose product id is not a well-formed ObjectId makes the
    product lookup throw: nothing is written and no order is placed; when
    it is the cart's first line item the answer is the 500 of the cast
    error, not the 404 of a missing product. *)
Theorem add_to_cart_malformed_product_id (env : Env) (body : CartBody) (rt : Runtime)
    (its : list Item.t) :
  items body = Some its ->
  existsb (fun it => negb (is_object_id (Item.product it))) its = true ->
  products (snd (add_to_cart env body rt)) = products rt /\
  orders (snd (add_to_cart env body rt)) = orders rt /\
  (forall v o, fst (add_to_cart env body rt) <> Json 201 (BPayment v o)) /\
  (forall it rest, its = it :: rest -> is_object_id (Item.product it) = false ->
     falsy (account body) = false ->
     add_to_cart env body rt =
       (Json 500 (BError "Server error." (CastError "_id" (Item.product it))), rt)).
Proof.
  intros Hits Hex.
  unfold add_to_cart, try_catch, add_to_cart_try. rewrite Hits.
  destruct (account body) as [acc|] eqn:Hacc.
  2:{ simpl. repeat split; try discriminate. }
  destruct (falsy (Some acc) || Nat.eqb (length its) 0) eqn:Hguard.
  { simpl. repeat split; try discriminate.
    intros it rest -> _ Hf. simpl in Hguard. rewrite Hf in Hguard. discriminate. }
  unfold bind.
  pose proof (cart_loop_store its 0 [] rt) as (Hp & Ho & _).
  pose proof (cart_loop_malformed its 0 [] rt) as Hmal.
  destruct (cart_loop its 0 [] rt) as [[[resp|v]|e] rt1] eqn:Hloop; unfold ret; simpl in *.
  - apply cart_loop_inl in Hloop as Hinl. destruct Hinl as (it & _ & _ & ->).
    repeat split; auto.
    + intros v o. destruct (rejection_of_code (products rt) it) as [H|H];
        intros Heq; rewrite Heq in H; discriminate.
    + intros it' rest -> Hbad _. simpl in Hloop. unfold_monad. rewrite Hbad in Hloop.
      discriminate.
  - exfalso. apply (Hmal v Hex). reflexivity.
  - repeat split; auto; try discriminate.
    intros it' rest -> Hbad _. simpl in Hloop. unfold_monad. rewrite Hbad in Hloop.
    injection Hloop as <- <-. reflexivity.
Qed.

Lemma add_to_cart_malformed_product_id_witness :
  add_to_cart sample_env (cart (Some id_promotion) [Item.mk "serum" 1]) shop =
    (Json 500 (BError "Server error." (CastError "_id" "serum")), shop).
Proof.
  exact (proj2 (proj2 (proj2
    (add_to_cart_malformed_product_id sample_env
       (cart (Some id_promotion) [Item.mk "serum" 1]) shop [Item.mk "serum" 1]
       eq_refl eq_refl)))
    (Item.mk "serum" 1) [] eq_refl eq_refl eq_refl).
Defined.

(** ** Further properties of the payment callback *)

(** X7. A callback whose response code is not "00" is answered with the
    redirect to the payment-failed page without any persistence operation:
    nothing of the run is touched, not even its budget. *)
Theorem vnpay_return_failure_code (code ref : string) (rt : Runtime) :
  code <> "00" ->
  vnpay_return code ref rt = (Redirect payment_failed_url, rt).
Proof.
  intros Hc. unfold vnpay_return, try_catch, vnpay_return_try.
  destruct (String.eqb code "00") eqn:E; [apply String.eqb_eq in E; contradiction|].
  reflexivity.
Qed.

Lemma vnpay_return_failure_code_witness :
  vnpay_return "24" id_order pending_shop = (Redirect payment_failed_url, pending_shop).
Proof. apply vnpay_return_failure_code. discriminate. Defined.





(** ** Further properties of order cancellation *)




(** X12. Cancelling a Paid order whose first line item names a product that is
    no longer stored throws on [item.product._id]: the answer is 500 and
    nothing is written; the order stays Paid. *)
Theorem cancel_order_deleted_product (env : Env) (orderId : string) (rt : Runtime)
    (o : Order.t) (it : Item.t) (rest : list Item.t) :
  is_object_id orderId = true ->
  budget rt = None ->
  orders rt !! orderId = Some o ->
  Order.status o = Paid ->
  Order.items o = it :: rest ->
  products rt !! Item.product it = None ->
  cancel_order env orderId rt =
    (Some (Json 500 (BError "Lỗi máy chủ" (TypeError "item.product._id"))), rt).
Proof.
  intros Hid Hb Ho Hs Hits Hp.
  destruct rt as [ps os ob bd]; simpl in *. subst bd.
  unfold cancel_order, try_catch, cancel_order_try, Order_findById_populate.
  unfold_monad. rewrite Hid. simpl. rewrite Ho. simpl. rewrite Hs, Hits. simpl.
  unfold bind, cancel_item. unfold_monad.
  unfold populate_item at 1. simpl. rewrite Hp. reflexivity.
Qed.

Lemma cancel_order_deleted_product_witness :
  cancel_order sample_env id_order (set_products ∅ paid_shop) =
    (Some (Json 500 (BError "Lỗi máy chủ" (TypeError "item.product._id"))),
     set_products ∅ paid_shop).
Proof.
  exact (cancel_order_deleted_product sample_env id_order (set_products ∅ paid_shop)
           paid_order (Item.mk id_A 3) [Item.mk id_B 2]
           eq_refl eq_refl eq_refl eq_refl eq_refl eq_refl).
Defined.

(** X13. Cancelling a Paid order that has no line items runs the loop zero
    times: the handler ends without sending any response and without
    writing anything; the order stays Paid. *)
Theorem cancel_order_empty_items (env : Env) (orderId : string) (rt : Runtime)
    (o : Order.t) :
  is_object_id orderId = true ->
  budget rt = None ->
  orders rt !! orderId = Some o ->
  Order.status o = Paid ->
  Order.items o = [] ->
  cancel_order env orderId rt = (None, rt).
Proof.
  intros Hid Hb Ho Hs Hits.
  destruct rt as [ps os ob bd]; simpl in *. subst bd.
  unfold cancel_order, try_catch, cancel_order_try, Order_findById_populate.
  unfold_monad. rewrite Hid. simpl. rewrite Ho. simpl. rewrite Hs, Hits. reflexivity.
Qed.

Lemma cancel_order_empty_items_witness :
  cancel_order sample_env id_order
    (set_orders {[ id_order := Order.mk id_account Paid [] (Some id_promotion) 0 ]} shop) =
  (None,
   set_orders {[ id_order := Order.mk id_account Paid [] (Some id_promotion) 0 ]} shop).
Proof.
  exact (cancel_order_empty_items sample_env id_order
           (set_orders {[ id_order := Order.mk id_account Paid [] (Some id_promotion) 0 ]} shop)
           (Order.mk id_account Paid [] (Some id_promotion) 0)
           eq_refl eq_refl eq_refl eq_refl eq_refl).
Defined.

Lemma cancel_item_outbox (env : Env) (orderId : string) (order : PopulatedOrder)
    (refund : Q) (item : PopulatedItem) (rt : Runtime) :
  exists e rt',
    cancel_item env orderId order refund item rt = (Thrown e, rt') /\
    outbox rt' = outbox rt.
Proof.
  unfold cancel_item. unfold_monad. rewrite account_unbound.
  destruct (pi_product item) as [[id p]|]; [|eauto].
  destruct rt as [ps os ob bd]; simpl.
  destruct bd as [[|[|[|n]]]|]; simpl;
    destruct (ps !! id); simpl;
    destruct (refundTemplate env); simpl; eauto.
Qed.

(** X14. No cancellation request ever hands a refund mail to the transporter. *)
Theorem cancel_order_sends_no_mail (env : Env) (orderId : string) (rt : Runtime) :
  outbox (snd (cancel_order env orderId rt)) = outbox rt.
Proof.
  unfold cancel_order, try_catch, cancel_order_try, Order_findById_populate.
  unfold_monad.
  destruct (is_object_id orderId); [|reflexivity].
  destruct rt as [ps os ob bd]; simpl.
  destruct bd as [[|n]|]; simpl; [reflexivity| |];
    (destruct (os !! orderId) as [o|]; simpl; [|reflexivity]);
    (destruct (bool_decide (Order.status o = Paid)); simpl; [|reflexivity]);
    (destruct (Order.items o) as [|it rest]; simpl; [reflexivity|]);
    unfold bind;
    match goal with
    | |- context [cancel_item ?e ?i ?po ?r ?x ?s] =>
        destruct (cancel_item_outbox e i po r x s) as (ex & rt1 & -> & Hout)
    end; simpl; exact Hout.
Qed.

(** ** Requests in sequence *)

Lemma run_quantity_nonneg_witness :
  0 <= Product.quantity (Product.mk "Serum" 10 100).
Proof.
  apply (run_quantity_nonneg
           [ (None, AddToCart sample_env (cart (Some id_promotion) [Item.mk id_A 3]));
             (None, VnpayReturn "00" id_order);
             (Some 3%nat, CancelOrder sample_env id_order) ]
           shop id_A (Product.mk "Serum" 10 100)).
  - reflexivity.
  - intros id p H. unfold shop in H. simpl in H.
    apply lookup_singleton_Some in H as [_ <-]. discriminate.
  - reflexivity.
Defined.







(** ** Listing the orders of an account *)





(** ** The role gate *)

Lemma split_space_not_nil (s : string) : split_space s <> [].
Proof.
  destruct s as [|c rest]; simpl; [discriminate|].
  destruct (is_space c); [discriminate|].
  destruct (split_space rest); discriminate.
Qed.

Lemma split_space_word (s : string) : no_space s = true -> split_space s = [s].
Proof.
  induction s as [|c rest IH]; simpl; [reflexivity|].
  intros H. apply andb_prop in H as [Hc Hrest].
  apply negb_true_iff in Hc. rewrite Hc, (IH Hrest). reflexivity.
Qed.

Lemma split_space_append (s t : string) :
  no_space s = true ->
  split_space (s +:+ " " +:+ t) = s :: split_space t.
Proof.
  induction s as [|c rest IH]; simpl; [reflexivity|].
  intros H. apply andb_prop in H as [Hc Hrest].
  apply negb_true_iff in Hc. rewrite Hc. simpl in IH. rewrite (IH Hrest). reflexivity.
Qed.

Lemma append_space_not_empty (s t : string) : String.eqb (s +:+ " " +:+ t) "" = false.
Proof. destruct s; reflexivity. Qed.

(** X20. A request without an Authorization header, with a header of a single
    word, or with a header whose first space is followed by nothing, is
    answered 401 "Missing token!" whatever the verifier would say. *)
Theorem roleMiddleware_missing_token (jwt_verify : string -> option Decoded)
    (allowedRoles : list string) (authorization : option string) :
  authorization = None \/
  (exists h, authorization = Some h /\ no_space h = true) \/
  (exists s, authorization = Some (s +:+ " ") /\ no_space s = true) ->
  roleMiddleware jwt_verify allowedRoles authorization = Reply 401 "Missing token!".
Proof.
  intros [->|[(h & -> & Hh)|(s & -> & Hs)]]; unfold roleMiddleware, bearer_token.
  - reflexivity.
  - destruct (String.eqb h ""); [reflexivity|].
    rewrite (split_space_word h Hh). reflexivity.
  - change (s +:+ " ") with (s +:+ " " +:+ "").
    rewrite append_space_not_empty, (split_space_append s "" Hs). reflexivity.
Qed.

Lemma roleMiddleware_missing_token_witness :
  roleMiddleware (fun _ => Some {| role := Some "customer" |}) ["customer"] (Some "Bearer") =
    Reply 401 "Missing token!".
Proof.
  apply roleMiddleware_missing_token. right. left. exists "Bearer".
  split; reflexivity.
Defined.

(** X21. For a header made of a first word, a space and a non-empty token
    without spaces, the gate decides on the token alone: 400 when the
    verifier throws, 403 when the verified payload's role is not among
    the allowed ones (or absent), and the request is handed on with the
    payload as [req.user] otherwise.  The first word is never looked at. *)
Theorem roleMiddleware_decides_on_token (jwt_verify : string -> option Decoded)
    (allowedRoles : list string) (scheme token : string) :
  no_space scheme = true -> no_space token = true -> token <> "" ->
  roleMiddleware jwt_verify allowedRoles (Some (scheme +:+ " " +:+ token)) =
    match jwt_verify token with
    | None => Reply 400 "Invalid token."
    | Some decoded =>
        if includes allowedRoles (role decoded) then Next decoded
        else Reply 403 "Access denied. You do not have permission to access this resource."
    end.
Proof.
  intros Hs Ht Hne. unfold roleMiddleware, bearer_token.
  rewrite append_space_not_empty, (split_space_append scheme token Hs),
    (split_space_word token Ht).
  simpl. destruct (String.eqb token "") eqn:E; [apply String.eqb_eq in E; contradiction|].
  destruct (jwt_verify token) as [d|]; [|reflexivity].
  destruct (includes allowedRoles (role d)); reflexivity.
Qed.

Lemma roleMiddleware_decides_on_token_witness :
  roleMiddleware (fun t => if String.eqb t "abc" then Some {| role := Some "manager" |}
                           else None)
                 ["customer"] (Some "Basic abc") =
    Reply 403 "Access denied. You do not have permission to access this resource.".
Proof.
  assert (Hne : "abc" <> "") by discriminate.
  exact (roleMiddleware_decides_on_token
           (fun t => if String.eqb t "abc" then Some {| role := Some "manager" |} else None)
           ["customer"] "Basic" "abc" eq_refl eq_refl Hne).
Defined.

(** X22. Whoever gets past the gate presented a header whose second
    space-separated field is a non-empty token that the verifier accepted,
    with a payload whose role is one of the allowed roles. *)
Theorem roleMiddleware_sound (jwt_verify : string -> option Decoded)
    (allowedRoles : list string) (authorization : option string) (user : Decoded) :
  roleMiddleware jwt_verify allowedRoles authorization = Next user ->
  exists h token r,
    authorization = Some h /\
    nth_error (split_space h) 1 = Some token /\ token <> "" /\
    jwt_verify token = Some user /\
    role user = Some r /\ In r allowedRoles.
Proof.
  unfold roleMiddleware, bearer_token.
  destruct authorization as [h|]; [|discriminate].
  destruct (String.eqb h ""); [discriminate|].
  destruct (nth_error (split_space h) 1) as [token|] eqn:Hn; [|discriminate].
  simpl. destruct (String.eqb token "") eqn:Ht; [discriminate|].
  destruct (jwt_verify token) as [d|] eqn:Hv; [|discriminate].
  destruct (includes allowedRoles (role d)) eqn:Hr; [|discriminate].
  simpl. intros [= <-].
  unfold includes in Hr. destruct (role d) as [r|] eqn:Hrole; [|discriminate].
  apply existsb_exists in Hr as (r' & Hin & Heq). apply String.eqb_eq in Heq. subst r'.
  exists h, token, r. repeat split; auto.
  intros ->. discriminate.
Qed.

Lemma roleMiddleware_sound_witness :
  exists h token r,
    Some "Bearer abc" = Some h /\
    nth_error (split_space h) 1 = Some token /\ token <> "" /\
    (fun _ : string => Some {| role := Some "customer" |}) token =
      Some {| role := Some "customer" |} /\
    role {| role := Some "customer" |} = Some r /\ In r ["customer"].
Proof.
  exact (roleMiddleware_sound (fun _ => Some {| role := Some "customer" |}) ["customer"]
           (Some "Bearer abc") {| role := Some "customer" |} eq_refl).
Defined.
